(** * Apex Replay Debugger: the quick-launch command

    A shallow embedding of
    [packages/salesforcedx-vscode-apex-replay-debugger/src/commands/quickLaunch.ts]
    and the properties of its workflow: run one Apex test synchronously,
    fetch the debug log it produced, and start a replay session on it.

    The module talks to seven collaborators (the workspace context, the
    trace-flag helper, the test service, the log service, the log directory
    resolver, the replay launcher and the notification service).  A run is
    modelled as its completion (a returned value or a thrown error) together
    with the chronological list of collaborator calls it made. *)

From Stdlib Require Import String List Bool Arith.
Import ListNotations.
Open Scope string_scope.

Set Implicit Arguments.

(** ** JavaScript values *)

(** A value of TypeScript type [string | undefined] (an optional property or
    an optional parameter). *)
Definition optional_string : Type := option string.

(** JavaScript truthiness of such a value: [undefined] and the empty string
    are falsy, every other string is truthy. *)
Definition truthy (v : optional_string) : bool :=
  match v with
  | Some s => negb (s =? "")
  | None => false
  end.

(** The string a guard [if (v)] (or [c && v], [v ? .. : ..]) lets through:
    inside the guarded branch [v] is a non-empty string. *)
Definition narrow (v : optional_string) : option string :=
  match v with
  | Some s => if truthy v then Some s else None
  | None => None
  end.

(** [xs[i]] on an array whose elements may themselves be [undefined]:
    reading past the end yields [undefined]. *)
Definition element (xs : list optional_string) (i : nat) : optional_string :=
  match nth_error xs i with
  | Some v => v
  | None => None
  end.

(** A thrown value: the catch variable is untyped, so it is any value.
    [Build message] is a value whose [message] property can be read (an
    [Error], another object, a primitive), with what the property holds,
    unset when there is none; [Null] and [Undefined] are the two values on
    which a property access itself throws. *)
Module JsError.
Inductive t : Type :=
| Build (message : optional_string)
| Null
| Undefined.
End JsError.

(** The [TypeError] raised by a property access on [undefined]. *)
Definition typeError (property : string) : JsError.t :=
  JsError.Build
    (Some ("Cannot read properties of undefined (reading '" ++ property ++ "')")).

(** The [TypeError] raised by a property access on [null]. *)
Definition typeErrorNull (property : string) : JsError.t :=
  JsError.Build
    (Some ("Cannot read properties of null (reading '" ++ property ++ "')")).

(** ** Data model *)

(** [TestItem] of [@salesforce/apex-node]: the two properties the command
    sets.  [className] is declared [string]; the executor fills it from
    [response.data[0]], which is [undefined] for an empty payload. *)
Module TestItem.
Record t : Type := Build {
  className : optional_string;
  testMethods : option (list string)
}.
End TestItem.

Module SyncTestConfiguration.
Record t : Type := Build {
  tests : list TestItem.t;
  testLevel : string
}.
End SyncTestConfiguration.

(** [ApexTestResultData]: the property the command reads, and the rest of
    the entry kept abstract. *)
Module ApexTestResultData.
Record t (Details : Type) : Type := Build {
  apexLogId : optional_string;
  details : Details
}.
End ApexTestResultData.

(** [TestResult]: the list of entries, and the rest of the result (summary,
    code coverage) kept abstract. *)
Module TestResult.
Record t (Summary Details : Type) : Type := Build {
  tests : list (ApexTestResultData.t Details);
  summary : Summary
}.
End TestResult.

(** [interface TestRunResult] *)
Module TestRunResult.
Record t : Type := Build {
  logFileId : optional_string;
  message : optional_string;
  success : bool
}.
End TestRunResult.

(** [interface LogFileRetrieveResult] *)
Module LogFileRetrieveResult.
Record t : Type := Build {
  filePath : optional_string;
  success : bool
}.
End LogFileRetrieveResult.

(** [ContinueResponse<string[]>]; [setupAndDebugTests] stores
    [[className, methodName]] in [data], so an element may be [undefined]. *)
Module ContinueResponse.
Record t : Type := Build {
  type : string;
  data : option (list optional_string)
}.
End ContinueResponse.

(** ** Runs: completions and collaborator calls *)

Inductive Completion (A : Type) : Type :=
| Returns (a : A)
| Throws (e : JsError.t).

Arguments Returns {A} a.
Arguments Throws {A} e.

(** [e.message] on a caught value: what the property holds, or the
    [TypeError] of reading a property of [null] or [undefined]. *)
Definition message_of (e : JsError.t) : Completion optional_string :=
  match e with
  | JsError.Build message => Returns message
  | JsError.Null => Throws (typeErrorNull "message")
  | JsError.Undefined => Throws (typeError "message")
  end.

(** One call made to a collaborator. *)
Inductive Event (Connection : Type) : Type :=
| GetConnection
| EnsureTraceFlags (connection : Connection)
| RunTestSynchronous (connection : Connection)
    (testOptions : SyncTestConfiguration.t)
| GetLogDirPath
| GetLogs (connection : Connection) (logId outputDir : string)
| LaunchFromLogFile (logFile : string) (stopOnEntry : bool)
| ShowErrorMessage (text : string).

Arguments GetConnection {Connection}.
Arguments GetLogDirPath {Connection}.
Arguments LaunchFromLogFile {Connection} logFile stopOnEntry.
Arguments ShowErrorMessage {Connection} text.

(** What the collaborators answer.  Every collaborator is called at most once
    in a run, so an answer per call fixes the whole environment.
    [launchFromLogFile] and [showErrorMessage] return nothing and are not
    awaited; [path.join] and [nls.localize] are pure. *)
Record Collaborators (Connection Summary Details : Type) : Type := {
  getConnection : Completion Connection;
  ensureTraceFlags : Connection -> Completion bool;
  runTestSynchronous :
    Connection -> SyncTestConfiguration.t ->
    Completion (TestResult.t Summary Details);
  getLogDirPath : string;
  getLogs : Connection -> string -> string -> Completion unit;
  path_join : string -> string -> string;
  localize : string -> string
}.

(** An asynchronous computation run to completion: how it completed and the
    calls it made, oldest first. *)
Definition Async (Connection A : Type) : Type :=
  (Completion A * list (Event Connection))%type.

Section AsyncMonad.
Context {Connection : Type}.

Definition ret {A} (a : A) : Async Connection A := (Returns a, []).

Definition throw {A} (e : JsError.t) : Async Connection A := (Throws e, []).

Definition bind {A B} (c : Async Connection A)
    (k : A -> Async Connection B) : Async Connection B :=
  match c with
  | (Returns a, calls) =>
      let (completion, later) := k a in (completion, (calls ++ later)%list)
  | (Throws e, calls) => (Throws e, calls)
  end.

(** [try { body } catch (e) { handler }] *)
Definition try_catch {A} (body : Async Connection A)
    (handler : JsError.t -> Async Connection A) : Async Connection A :=
  match body with
  | (Returns a, calls) => (Returns a, calls)
  | (Throws e, calls) =>
      let (completion, later) := handler e in (completion, (calls ++ later)%list)
  end.

(** A call to a collaborator, recorded with its answer. *)
Definition call {A} (ev : Event Connection) (answer : Completion A)
  : Async Connection A := (answer, [ev]).

(** An expression evaluated in place: it completes without calling any
    collaborator. *)
Definition evaluate {A} (completion : Completion A) : Async Connection A :=
  (completion, []).
End AsyncMonad.

Declare Scope async_scope.
Delimit Scope async_scope with async.
Notation "x <- c ;; k" := (bind c (fun x => k))
  (at level 61, c at next level, right associativity) : async_scope.
Notation "c ;;; k" := (bind c (fun _ => k))
  (at level 61, right associativity) : async_scope.
Open Scope async_scope.

(** ** Collaborator objects *)

(** [new TraceFlags(connection)], [new TestService(connection)] and
    [new LogService(connection)] keep the connection they are given. *)
Module TraceFlags.
Record t (Connection : Type) : Type := Build { connection : Connection }.
End TraceFlags.

Module TestService.
Record t (Connection : Type) : Type := Build { connection : Connection }.
End TestService.

Module LogService.
Record t (Connection : Type) : Type := Build { connection : Connection }.
End LogService.

Section CollaboratorCalls.
Context {Connection Summary Details : Type}.
Variable w : Collaborators Connection Summary Details.

Definition workspaceContext_getConnection : Async Connection Connection :=
  call GetConnection (getConnection w).

Definition flags_ensureTraceFlags (flags : TraceFlags.t Connection)
  : Async Connection bool :=
  let c := TraceFlags.connection flags in
  call (EnsureTraceFlags c) (ensureTraceFlags w c).

Definition testService_runTestSynchronous
    (testService : TestService.t Connection)
    (testOptions : SyncTestConfiguration.t)
  : Async Connection (TestResult.t Summary Details) :=
  let c := TestService.connection testService in
  call (RunTestSynchronous c testOptions) (runTestSynchronous w c testOptions).

Definition utils_getLogDirPath : Async Connection string :=
  call GetLogDirPath (Returns (getLogDirPath w)).

Definition logService_getLogs (logService : LogService.t Connection)
    (logId outputDir : string) : Async Connection unit :=
  let c := LogService.connection logService in
  call (GetLogs c logId outputDir) (getLogs w c logId outputDir).

Definition launchFromLogFile (logFile : string) (stopOnEntry : bool)
  : Async Connection unit :=
  call (LaunchFromLogFile logFile stopOnEntry) (Returns tt).

Definition notificationService_showErrorMessage (text : string)
  : Async Connection unit :=
  call (ShowErrorMessage text) (Returns tt).
End CollaboratorCalls.

(** ** [class QuickLaunch] *)

Module QuickLaunch.
Section Methods.
Context {Connection Summary Details : Type}.
Variable w : Collaborators Connection Summary Details.

(** [const testOptions: SyncTestConfiguration], the request built at the
    head of [runSingleTest]. *)
Definition testOptions (testClass : optional_string)
    (testMethod : optional_string) : SyncTestConfiguration.t :=
  SyncTestConfiguration.Build
    [ TestItem.Build testClass
        (match narrow testMethod with
         | Some method => Some [method]
         | None => None
         end) ]
    "RunSpecifiedTests".

(** [private async runSingleTest(connection, testClass, testMethod?)] *)
Definition runSingleTest (connection : Connection)
    (testClass : optional_string) (testMethod : optional_string)
  : Async Connection TestRunResult.t :=
  let testOptions := testOptions testClass testMethod in
  let testService := TestService.Build connection in
  try_catch
    (result <- testService_runTestSynchronous w testService testOptions ;;
     let tests := TestResult.tests result in
     if Nat.eqb (length tests) 0 then
       ret (TestRunResult.Build None
              (Some (localize w "debug_test_no_results_found")) false)
     else
       match nth_error tests 0 with
       | None => throw (typeError "apexLogId")
       | Some first =>
           if negb (truthy (ApexTestResultData.apexLogId first)) then
             ret (TestRunResult.Build None
                    (Some (localize w "debug_test_no_debug_log")) false)
           else
             ret (TestRunResult.Build
                    (ApexTestResultData.apexLogId first) None true)
       end)
    (fun e =>
       message <- evaluate (message_of e) ;;
       ret (TestRunResult.Build None message false)).

(** [private async retrieveLogFile(connection, logId)] *)
Definition retrieveLogFile (connection : Connection) (logId : string)
  : Async Connection LogFileRetrieveResult.t :=
  let logService := LogService.Build connection in
  outputDir <- utils_getLogDirPath w ;;
  logService_getLogs w logService logId outputDir ;;;
  let logPath := path_join w outputDir (logId ++ ".log") in
  ret (LogFileRetrieveResult.Build (Some logPath) true).

(** [public async debugTest(testClass, testName?)] *)
Definition debugTest (testClass : optional_string)
    (testName : optional_string) : Async Connection bool :=
  connection <- workspaceContext_getConnection w ;;
  let flags := TraceFlags.Build connection in
  ready <- flags_ensureTraceFlags w flags ;;
  if negb ready then ret false
  else
    testResult <- runSingleTest connection testClass testName ;;
    match
      (if TestRunResult.success testResult
       then narrow (TestRunResult.logFileId testResult) else None)
    with
    | Some logFileId =>
        logFileRetrive <- retrieveLogFile connection logFileId ;;
        match
          (if LogFileRetrieveResult.success logFileRetrive
           then narrow (LogFileRetrieveResult.filePath logFileRetrive)
           else None)
        with
        | Some filePath =>
            launchFromLogFile filePath false ;;;
            ret true
        | None => ret false
        end
    | None =>
        match narrow (TestRunResult.message testResult) with
        | Some text =>
            notificationService_showErrorMessage text ;;;
            ret false
        | None => ret false
        end
    end.
End Methods.
End QuickLaunch.

(** ** [class TestDebuggerExecutor] *)

(** What the base class [LibraryCommandletExecutor<string[]>] sees of an
    executor: its two names and its [run] method. *)
Module LibraryCommandletExecutor.
Record t (Connection : Type) : Type := Build {
  executionName : string;
  logName : string;
  run : ContinueResponse.t -> Async Connection bool
}.
End LibraryCommandletExecutor.

Module TestDebuggerExecutor.
Section Methods.
Context {Connection Summary Details : Type}.
Variable w : Collaborators Connection Summary Details.

(** [public async run(response)] *)
Definition run (response : ContinueResponse.t) : Async Connection bool :=
  match ContinueResponse.data response with
  | None => ret false
  | Some data =>
      let className := element data 0 in
      let methodName := element data 1 in
      success <- QuickLaunch.debugTest w className methodName ;;
      ret success
  end.

(** [new TestDebuggerExecutor()] *)
Definition new : LibraryCommandletExecutor.t Connection :=
  LibraryCommandletExecutor.Build
    (localize w "debug_test_exec_name")
    "debug_test_replay_debugger"
    run.
End Methods.
End TestDebuggerExecutor.

(** ** [setupAndDebugTests] *)

Section SetupAndDebugTests.
Context {Connection Summary Details : Type}.
Variable w : Collaborators Connection Summary Details.

(** [execute] is inherited from [LibraryCommandletExecutor], which belongs to
    [../utils]; it is taken as given. *)
Variable execute :
  LibraryCommandletExecutor.t Connection -> ContinueResponse.t ->
  Async Connection unit.

(** [const response], the value handed to the executor. *)
Definition setupAndDebugTests_response (className : string)
    (methodName : optional_string) : ContinueResponse.t :=
  ContinueResponse.Build "CONTINUE" (Some [Some className; methodName]).

(** [export async function setupAndDebugTests(className, methodName?)] *)
Definition setupAndDebugTests (className : string)
    (methodName : optional_string) : Async Connection unit :=
  let executor := TestDebuggerExecutor.new w in
  let response := setupAndDebugTests_response className methodName in
  execute executor response ;;;
  ret tt.
End SetupAndDebugTests.

(** ** Observing a run *)

Section Observations.
Context {Connection : Type}.

(** The texts handed to [notificationService.showErrorMessage]. *)
Fixpoint notifications (calls : list (Event Connection)) : list string :=
  match calls with
  | [] => []
  | ShowErrorMessage text :: rest => text :: notifications rest
  | _ :: rest => notifications rest
  end.

(** The arguments of the calls to [launchFromLogFile]. *)
Fixpoint launches (calls : list (Event Connection))
  : list (string * bool) :=
  match calls with
  | [] => []
  | LaunchFromLogFile logFile stopOnEntry :: rest =>
      (logFile, stopOnEntry) :: launches rest
  | _ :: rest => launches rest
  end.

(** The requests sent through [runTestSynchronous]. *)
Fixpoint testRuns (calls : list (Event Connection))
  : list SyncTestConfiguration.t :=
  match calls with
  | [] => []
  | RunTestSynchronous _ request :: rest => request :: testRuns rest
  | _ :: rest => testRuns rest
  end.

(** The calls made by the log acquisition stage: resolving the log
    directory and downloading the log. *)
Definition isAcquisition (ev : Event Connection) : bool :=
  match ev with
  | GetLogDirPath | GetLogs _ _ _ => true
  | _ => false
  end.

Definition acquisitions (calls : list (Event Connection))
  : list (Event Connection) :=
  filter isAcquisition calls.

(** The connections handed to the services, call by call. *)
Fixpoint connectionsUsed (calls : list (Event Connection))
  : list Connection :=
  match calls with
  | [] => []
  | EnsureTraceFlags c :: rest => c :: connectionsUsed rest
  | RunTestSynchronous c _ :: rest => c :: connectionsUsed rest
  | GetLogs c _ _ :: rest => c :: connectionsUsed rest
  | _ :: rest => connectionsUsed rest
  end.
End Observations.

(** ** The ways a run can go *)

Section Runs.
Context {Connection Summary Details : Type}.
Variable w : Collaborators Connection Summary Details.
Variables testClass testName : optional_string.

(** The four return sites of [runSingleTest], each with the answer of the
    remote call that leads to it. *)
Inductive InvocationCase (connection : Connection) : TestRunResult.t -> Prop :=
| invocation_thrown (e : JsError.t) (message : optional_string) :
    runTestSynchronous w connection
      (QuickLaunch.testOptions testClass testName) = Throws e ->
    message_of e = Returns message ->
    InvocationCase connection (TestRunResult.Build None message false)
| invocation_no_results (result : TestResult.t Summary Details) :
    runTestSynchronous w connection
      (QuickLaunch.testOptions testClass testName) = Returns result ->
    TestResult.tests result = [] ->
    InvocationCase connection
      (TestRunResult.Build None
         (Some (localize w "debug_test_no_results_found")) false)
| invocation_no_log (result : TestResult.t Summary Details)
    (first : ApexTestResultData.t Details)
    (rest : list (ApexTestResultData.t Details)) :
    runTestSynchronous w connection
      (QuickLaunch.testOptions testClass testName) = Returns result ->
    TestResult.tests result = first :: rest ->
    truthy (ApexTestResultData.apexLogId first) = false ->
    InvocationCase connection
      (TestRunResult.Build None
         (Some (localize w "debug_test_no_debug_log")) false)
| invocation_logged (result : TestResult.t Summary Details)
    (first : ApexTestResultData.t Details)
    (rest : list (ApexTestResultData.t Details)) (logId : string) :
    runTestSynchronous w connection
      (QuickLaunch.testOptions testClass testName) = Returns result ->
    TestResult.tests result = first :: rest ->
    ApexTestResultData.apexLogId first = Some logId ->
    logId <> "" ->
    InvocationCase connection (TestRunResult.Build (Some logId) None true).

(** The exits of [debugTest]: how the run completed and the calls it made. *)
Inductive DebugTestRun : Async Connection bool -> Prop :=
| run_connection_thrown (e : JsError.t) :
    getConnection w = Throws e ->
    DebugTestRun (Throws e, [GetConnection])
| run_flags_thrown (connection : Connection) (e : JsError.t) :
    getConnection w = Returns connection ->
    ensureTraceFlags w connection = Throws e ->
    DebugTestRun (Throws e, [GetConnection; EnsureTraceFlags connection])
| run_not_ready (connection : Connection) :
    getConnection w = Returns connection ->
    ensureTraceFlags w connection = Returns false ->
    DebugTestRun (Returns false, [GetConnection; EnsureTraceFlags connection])
| run_catch_thrown (connection : Connection) (e thrown : JsError.t) :
    getConnection w = Returns connection ->
    ensureTraceFlags w connection = Returns true ->
    runTestSynchronous w connection
      (QuickLaunch.testOptions testClass testName) = Throws e ->
    message_of e = Throws thrown ->
    DebugTestRun
      (Throws thrown,
       [GetConnection; EnsureTraceFlags connection;
        RunTestSynchronous connection
          (QuickLaunch.testOptions testClass testName)])
| run_failed_silently (connection : Connection) (outcome : TestRunResult.t) :
    getConnection w = Returns connection ->
    ensureTraceFlags w connection = Returns true ->
    InvocationCase connection outcome ->
    TestRunResult.success outcome = false ->
    narrow (TestRunResult.message outcome) = None ->
    DebugTestRun
      (Returns false,
       [GetConnection; EnsureTraceFlags connection;
        RunTestSynchronous connection
          (QuickLaunch.testOptions testClass testName)])
| run_failed_reported (connection : Connection) (outcome : TestRunResult.t)
    (text : string) :
    getConnection w = Returns connection ->
    ensureTraceFlags w connection = Returns true ->
    InvocationCase connection outcome ->
    TestRunResult.success outcome = false ->
    narrow (TestRunResult.message outcome) = Some text ->
    DebugTestRun
      (Returns false,
       [GetConnection; EnsureTraceFlags connection;
        RunTestSynchronous connection
          (QuickLaunch.testOptions testClass testName);
        ShowErrorMessage text])
| run_download_thrown (connection : Connection) (logId : string)
    (e : JsError.t) :
    getConnection w = Returns connection ->
    ensureTraceFlags w connection = Returns true ->
    InvocationCase connection (TestRunResult.Build (Some logId) None true) ->
    getLogs w connection logId (getLogDirPath w) = Throws e ->
    DebugTestRun
      (Throws e,
       [GetConnection; EnsureTraceFlags connection;
        RunTestSynchronous connection
          (QuickLaunch.testOptions testClass testName);
        GetLogDirPath; GetLogs connection logId (getLogDirPath w)])
| run_no_path (connection : Connection) (logId : string) :
    getConnection w = Returns connection ->
    ensureTraceFlags w connection = Returns true ->
    InvocationCase connection (TestRunResult.Build (Some logId) None true) ->
    getLogs w connection logId (getLogDirPath w) = Returns tt ->
    path_join w (getLogDirPath w) (logId ++ ".log") = "" ->
    DebugTestRun
      (Returns false,
       [GetConnection; EnsureTraceFlags connection;
        RunTestSynchronous connection
          (QuickLaunch.testOptions testClass testName);
        GetLogDirPath; GetLogs connection logId (getLogDirPath w)])
| run_replayed (connection : Connection) (logId : string) :
    getConnection w = Returns connection ->
    ensureTraceFlags w connection = Returns true ->
    InvocationCase connection (TestRunResult.Build (Some logId) None true) ->
    getLogs w connection logId (getLogDirPath w) = Returns tt ->
    path_join w (getLogDirPath w) (logId ++ ".log") <> "" ->
    DebugTestRun
      (Returns true,
       [GetConnection; EnsureTraceFlags connection;
        RunTestSynchronous connection
          (QuickLaunch.testOptions testClass testName);
        GetLogDirPath; GetLogs connection logId (getLogDirPath w);
        LaunchFromLogFile
          (path_join w (getLogDirPath w) (logId ++ ".log")) false]).
End Runs.

(** ** Sample environments *)

Module Sample.
(** An org connection, named by its user. *)
Definition connection : string := "dev@example.org".

Definition join (dir file : string) : string := dir ++ "/" ++ file.

(** An environment whose connection is available, whose log directory is
    [.sfdx/tools/debug/logs], and whose three remote calls answer as given. *)
Definition world (ready : Completion bool)
    (outcome : Completion (TestResult.t nat string))
    (download : Completion unit) : Collaborators string nat string :=
  {| getConnection := Returns connection;
     ensureTraceFlags := fun _ => ready;
     runTestSynchronous := fun _ _ => outcome;
     getLogDirPath := ".sfdx/tools/debug/logs";
     getLogs := fun _ _ _ => download;
     path_join := join;
     localize := fun key => key |}.

Definition entry (apexLogId : optional_string) (method : string)
  : ApexTestResultData.t string :=
  ApexTestResultData.Build apexLogId method.

Definition passed (entries : list (ApexTestResultData.t string))
  : Completion (TestResult.t nat string) :=
  Returns (TestResult.Build entries (length entries)).

Definition failed (text : string) : Completion (TestResult.t nat string) :=
  Throws (JsError.Build (Some text)).

(** The test ran and left the log [07L5w00000AbCdE]; the download works. *)
Definition logged : Collaborators string nat string :=
  world (Returns true)
    (passed [entry (Some "07L5w00000AbCdE") "testA"]) (Returns tt).

(** The first entry has no log, the second has one. *)
Definition logOnSecondEntry : Collaborators string nat string :=
  world (Returns true)
    (passed [entry None "testA"; entry (Some "07L5w00000AbCdE") "testB"])
    (Returns tt).

(** The first entry carries the empty string as its log identifier. *)
Definition emptyLogId : Collaborators string nat string :=
  world (Returns true) (passed [entry (Some "") "testA"]) (Returns tt).

(** The remote call returns no entry at all. *)
Definition noResults : Collaborators string nat string :=
  world (Returns true) (passed []) (Returns tt).

(** The remote call throws [new Error("timeout")]. *)
Definition timeout : Collaborators string nat string :=
  world (Returns true) (failed "timeout") (Returns tt).

(** The remote call throws [new Error()], whose message is empty. *)
Definition emptyError : Collaborators string nat string :=
  world (Returns true) (failed "") (Returns tt).

(** Trace flags cannot be set. *)
Definition notReady : Collaborators string nat string :=
  world (Returns false)
    (passed [entry (Some "07L5w00000AbCdE") "testA"]) (Returns tt).

(** No org is connected: [getConnection] throws. *)
Definition offline : Collaborators string nat string :=
  {| getConnection := Throws (JsError.Build (Some "No default org is set"));
     ensureTraceFlags := fun _ => Returns true;
     runTestSynchronous :=
       fun _ _ => passed [entry (Some "07L5w00000AbCdE") "testA"];
     getLogDirPath := ".sfdx/tools/debug/logs";
     getLogs := fun _ _ _ => Returns tt;
     path_join := join;
     localize := fun key => key |}.

(** Setting the trace flags throws. *)
Definition flagsError : Collaborators string nat string :=
  world (Throws (JsError.Build (Some "INVALID_SESSION_ID")))
    (passed [entry (Some "07L5w00000AbCdE") "testA"]) (Returns tt).

(** The test ran and left a log, but the download throws. *)
Definition downloadError : Collaborators string nat string :=
  world (Returns true)
    (passed [entry (Some "07L5w00000AbCdE") "testA"])
    (Throws (JsError.Build (Some "ENOENT"))).

(** The remote call throws a value without [message] property. *)
Definition silentError : Collaborators string nat string :=
  world (Returns true) (Throws (JsError.Build None)) (Returns tt).

(** The remote call rejects with [null]. *)
Definition nullRejection : Collaborators string nat string :=
  world (Returns true) (Throws JsError.Null) (Returns tt).
End Sample.

(** * Properties *)

(** ** Truthiness *)

Lemma truthy_nonempty (s : string) : s <> "" -> truthy (Some s) = true.
Proof.
  intros Hs. simpl. destruct (String.eqb_spec s ""); [contradiction | reflexivity].
Qed.

Lemma narrow_nonempty (s : string) : s <> "" -> narrow (Some s) = Some s.
Proof.
  intros Hs. unfold narrow. now rewrite truthy_nonempty.
Qed.

Lemma narrow_inv (v : optional_string) (s : string) :
  narrow v = Some s -> v = Some s /\ s <> "".
Proof.
  destruct v as [s'|]; simpl; [|discriminate].
  destruct (String.eqb_spec s' ""); simpl; [discriminate|].
  intros [= <-]. now split.
Qed.

(** Unfolds the monadic plumbing once the methods themselves are unfolded. *)
Ltac run_async :=
  unfold workspaceContext_getConnection, flags_ensureTraceFlags,
    testService_runTestSynchronous, utils_getLogDirPath, logService_getLogs,
    launchFromLogFile, notificationService_showErrorMessage,
    try_catch, bind, call, evaluate, ret, throw; cbn.

(** ** The test invocation stage *)

Section RunSingleTest.
Context {Connection Summary Details : Type}.
Variable w : Collaborators Connection Summary Details.
Variable connection : Connection.
Variables testClass testMethod : optional_string.

Let request := QuickLaunch.testOptions testClass testMethod.

(** The stage makes one call, the synchronous test run, whatever comes
    back. *)
Lemma runSingleTest_calls :
  snd (QuickLaunch.runSingleTest w connection testClass testMethod)
  = [RunTestSynchronous connection request].
Proof.
  unfold QuickLaunch.runSingleTest. run_async.
  destruct (runTestSynchronous w connection _) as [result|e]; cbn;
    [|now destruct (message_of e)].
  destruct (TestResult.tests result) as [|first rest]; cbn; [reflexivity|].
  now destruct (truthy (ApexTestResultData.apexLogId first)).
Qed.

(** What the stage returns when the remote call returns a result. *)
Lemma runSingleTest_returned (result : TestResult.t Summary Details) :
  runTestSynchronous w connection request = Returns result ->
  fst (QuickLaunch.runSingleTest w connection testClass testMethod)
  = Returns
      match TestResult.tests result with
      | [] =>
          TestRunResult.Build None
            (Some (localize w "debug_test_no_results_found")) false
      | first :: _ =>
          if truthy (ApexTestResultData.apexLogId first)
          then TestRunResult.Build (ApexTestResultData.apexLogId first)
                 None true
          else TestRunResult.Build None
                 (Some (localize w "debug_test_no_debug_log")) false
      end.
Proof.
  intros Hrun. unfold QuickLaunch.runSingleTest. run_async.
  fold request. rewrite Hrun. cbn.
  destruct (TestResult.tests result) as [|first rest]; cbn; [reflexivity|].
  now destruct (truthy (ApexTestResultData.apexLogId first)).
Qed.

(** What the stage returns when the remote call throws a value whose
    message can be read. *)
Lemma runSingleTest_thrown (e : JsError.t) (message : optional_string) :
  runTestSynchronous w connection request = Throws e ->
  message_of e = Returns message ->
  fst (QuickLaunch.runSingleTest w connection testClass testMethod)
  = Returns (TestRunResult.Build None message false).
Proof.
  intros Hrun Hmessage. unfold QuickLaunch.runSingleTest. run_async.
  fold request. now rewrite Hrun, Hmessage.
Qed.

(** What leaves the stage when reading the message of the caught value
    throws. *)
Lemma runSingleTest_catch_thrown (e thrown : JsError.t) :
  runTestSynchronous w connection request = Throws e ->
  message_of e = Throws thrown ->
  fst (QuickLaunch.runSingleTest w connection testClass testMethod)
  = Throws thrown.
Proof.
  intros Hrun Hmessage. unfold QuickLaunch.runSingleTest. run_async.
  fold request. now rewrite Hrun, Hmessage.
Qed.
End RunSingleTest.

(** ** The orchestrator, branch by branch *)

Section DebugTest.
Context {Connection Summary Details : Type}.
Variable w : Collaborators Connection Summary Details.
Variable connection : Connection.
Variables testClass testName : optional_string.

Hypothesis connected : getConnection w = Returns connection.

Let request := QuickLaunch.testOptions testClass testName.
Let prologue : list (Event Connection) :=
  [GetConnection; EnsureTraceFlags connection].

(** Trace flags could not be set: nothing else happens. *)
Lemma debugTest_not_ready :
  ensureTraceFlags w connection = Returns false ->
  QuickLaunch.debugTest w testClass testName = (Returns false, prologue).
Proof.
  intros Hready. unfold QuickLaunch.debugTest. run_async.
  rewrite connected. cbn. now rewrite Hready.
Qed.

(** Reading the message of the caught value throws: the error leaves
    [runSingleTest] and then [debugTest]. *)
Lemma debugTest_catch_thrown (e thrown : JsError.t) :
  ensureTraceFlags w connection = Returns true ->
  runTestSynchronous w connection request = Throws e ->
  message_of e = Throws thrown ->
  QuickLaunch.debugTest w testClass testName
  = (Throws thrown, prologue ++ [RunTestSynchronous connection request])%list.
Proof.
  intros Hready Hrun Hmessage.
  unfold QuickLaunch.debugTest. run_async.
  rewrite connected. cbn. rewrite Hready. cbn.
  rewrite (surjective_pairing (QuickLaunch.runSingleTest _ _ _ _)).
  rewrite runSingleTest_calls.
  now rewrite (runSingleTest_catch_thrown w connection testClass testName
                 Hrun Hmessage).
Qed.

Section Ready.
Hypothesis ready : ensureTraceFlags w connection = Returns true.

Variable testResult : TestRunResult.t.
Hypothesis invoked :
  fst (QuickLaunch.runSingleTest w connection testClass testName)
  = Returns testResult.

Lemma runSingleTest_run :
  QuickLaunch.runSingleTest w connection testClass testName
  = (Returns testResult, [RunTestSynchronous connection request]).
Proof.
  rewrite (surjective_pairing (QuickLaunch.runSingleTest _ _ _ _)).
  now rewrite invoked, runSingleTest_calls.
Qed.

(** The [else] branch of the first guard: the message, when truthy, is
    shown once; no log is fetched and no replay is started. *)
Lemma debugTest_test_failed :
  (if TestRunResult.success testResult
   then narrow (TestRunResult.logFileId testResult) else None) = None ->
  QuickLaunch.debugTest w testClass testName
  = (Returns false,
     prologue ++ [RunTestSynchronous connection request]
     ++ match narrow (TestRunResult.message testResult) with
        | Some text => [ShowErrorMessage text]
        | None => []
        end)%list.
Proof.
  intros Hguard. unfold QuickLaunch.debugTest. run_async.
  rewrite connected. cbn. rewrite ready. cbn.
  rewrite runSingleTest_run, Hguard.
  now destruct (narrow (TestRunResult.message testResult)).
Qed.

(** The [then] branch of the first guard, when the download returns. *)
Lemma debugTest_log_retrieved (logFileId : string) :
  TestRunResult.success testResult = true ->
  narrow (TestRunResult.logFileId testResult) = Some logFileId ->
  getLogs w connection logFileId (getLogDirPath w) = Returns tt ->
  let logPath := path_join w (getLogDirPath w) (logFileId ++ ".log") in
  QuickLaunch.debugTest w testClass testName
  = (match narrow (Some logPath) with
     | Some _ => Returns true
     | None => Returns false
     end,
     prologue
     ++ [RunTestSynchronous connection request; GetLogDirPath;
         GetLogs connection logFileId (getLogDirPath w)]
     ++ match narrow (Some logPath) with
        | Some filePath => [LaunchFromLogFile filePath false]
        | None => []
        end)%list.
Proof.
  intros Hsuccess Hlog Hdownload logPath.
  unfold QuickLaunch.debugTest, QuickLaunch.retrieveLogFile. run_async.
  rewrite connected. cbn. rewrite ready. cbn.
  rewrite runSingleTest_run, Hsuccess, Hlog, Hdownload. cbn.
  fold logPath.
  now destruct (if negb (logPath =? "") then Some logPath else None).
Qed.

(** The [then] branch of the first guard, when the download throws: the
    error leaves [debugTest] and no replay is started. *)
Lemma debugTest_download_thrown (logFileId : string) (e : JsError.t) :
  TestRunResult.success testResult = true ->
  narrow (TestRunResult.logFileId testResult) = Some logFileId ->
  getLogs w connection logFileId (getLogDirPath w) = Throws e ->
  QuickLaunch.debugTest w testClass testName
  = (Throws e,
     prologue
     ++ [RunTestSynchronous connection request; GetLogDirPath;
         GetLogs connection logFileId (getLogDirPath w)])%list.
Proof.
  intros Hsuccess Hlog Hdownload.
  unfold QuickLaunch.debugTest, QuickLaunch.retrieveLogFile. run_async.
  rewrite connected. cbn. rewrite ready. cbn.
  now rewrite runSingleTest_run, Hsuccess, Hlog, Hdownload.
Qed.
End Ready.
End DebugTest.

Lemma sample_join_nonempty (dir file : string) : Sample.join dir file <> "".
Proof.
  unfold Sample.join. destruct dir; discriminate.
Qed.

(** ** The test invocation stage: request and outcome *)

Section InvocationStage.
Context {Connection Summary Details : Type}.
Variable w : Collaborators Connection Summary Details.
Variable connection : Connection.
Variables testClass testMethod : optional_string.


(** C3.  When the returned test list is non-empty and its first entry has no
    log identifier, [runSingleTest] returns the failure outcome with the
    [debug_test_no_debug_log] message, whatever the later entries carry. *)
Theorem runSingleTest_first_entry_without_log
    (result : TestResult.t Summary Details)
    (first : ApexTestResultData.t Details)
    (rest : list (ApexTestResultData.t Details)) :
  runTestSynchronous w connection
    (QuickLaunch.testOptions testClass testMethod) = Returns result ->
  TestResult.tests result = first :: rest ->
  ApexTestResultData.apexLogId first = None ->
  fst (QuickLaunch.runSingleTest w connection testClass testMethod)
  = Returns (TestRunResult.Build None
               (Some (localize w "debug_test_no_debug_log")) false).
Proof.
  intros Hrun Htests Hlog.
  rewrite (runSingleTest_returned w connection testClass testMethod Hrun).
  now rewrite Htests, Hlog.
Qed.

(** C4.  When the returned test list is empty, [runSingleTest] returns the
    failure outcome with the [debug_test_no_results_found] message, whatever
    the rest of the result holds. *)
Theorem runSingleTest_no_results (result : TestResult.t Summary Details) :
  runTestSynchronous w connection
    (QuickLaunch.testOptions testClass testMethod) = Returns result ->
  TestResult.tests result = [] ->
  fst (QuickLaunch.runSingleTest w connection testClass testMethod)
  = Returns (TestRunResult.Build None
               (Some (localize w "debug_test_no_results_found")) false).
Proof.
  intros Hrun Htests.
  rewrite (runSingleTest_returned w connection testClass testMethod Hrun).
  now rewrite Htests.
Qed.

(** C8 (amended).  The request sent by [runSingleTest] carries exactly one
    test item, naming the class.  A non-empty method name constrains the
    item to exactly that method; an absent or empty method name leaves the
    item without method constraint.  In every case the test level is
    [RunSpecifiedTests]. *)
Theorem runSingleTest_request :
  (forall method, testMethod = Some method -> method <> "" ->
     testRuns (snd (QuickLaunch.runSingleTest w connection testClass testMethod))
     = [SyncTestConfiguration.Build
          [TestItem.Build testClass (Some [method])] "RunSpecifiedTests"])
  /\ (testMethod = None \/ testMethod = Some "" ->
      testRuns (snd (QuickLaunch.runSingleTest w connection testClass testMethod))
      = [SyncTestConfiguration.Build
           [TestItem.Build testClass None] "RunSpecifiedTests"]).
Proof.
  rewrite runSingleTest_calls. cbn [testRuns]. unfold QuickLaunch.testOptions.
  split.
  - intros method -> Hmethod. now rewrite narrow_nonempty.
  - now intros [-> | ->].
Qed.

(** C9.  Every outcome [runSingleTest] returns obeys the invariant of
    [TestRunResult]: a successful one carries a log identifier, a failed one
    carries none. *)
Theorem runSingleTest_outcome_invariant (outcome : TestRunResult.t) :
  fst (QuickLaunch.runSingleTest w connection testClass testMethod)
  = Returns outcome ->
  (TestRunResult.success outcome = true ->
   TestRunResult.logFileId outcome <> None)
  /\ (TestRunResult.success outcome = false ->
      TestRunResult.logFileId outcome = None).
Proof.
  destruct (runTestSynchronous w connection
              (QuickLaunch.testOptions testClass testMethod))
    as [result|e] eqn:Hrun.
  - rewrite (runSingleTest_returned w connection testClass testMethod Hrun).
    intros [= <-].
    destruct (TestResult.tests result) as [|first rest]; cbn; [easy|].
    destruct (ApexTestResultData.apexLogId first) as [logId|]; cbn; [|easy].
    destruct (logId =? ""); cbn; easy.
  - destruct (message_of e) as [message|thrown] eqn:Hmessage.
    + rewrite (runSingleTest_thrown w connection testClass testMethod Hrun
                 Hmessage).
      intros [= <-]. cbn. easy.
    + rewrite (runSingleTest_catch_thrown w connection testClass testMethod
                 Hrun Hmessage).
      discriminate.
Qed.
End InvocationStage.



Lemma runSingleTest_first_entry_without_log_witness :
  fst (QuickLaunch.runSingleTest Sample.logOnSecondEntry Sample.connection
         (Some "MyTest") None)
  = Returns (TestRunResult.Build None (Some "debug_test_no_debug_log") false).
Proof.
  exact (@runSingleTest_first_entry_without_log _ _ _ Sample.logOnSecondEntry
           Sample.connection (Some "MyTest") None
           (TestResult.Build
              [Sample.entry None "testA";
               Sample.entry (Some "07L5w00000AbCdE") "testB"] 2)
           (Sample.entry None "testA")
           [Sample.entry (Some "07L5w00000AbCdE") "testB"]
           eq_refl eq_refl eq_refl).
Defined.

Lemma runSingleTest_no_results_witness :
  fst (QuickLaunch.runSingleTest Sample.noResults Sample.connection
         (Some "MyTest") (Some "testA"))
  = Returns (TestRunResult.Build None
               (Some "debug_test_no_results_found") false).
Proof.
  exact (@runSingleTest_no_results _ _ _ Sample.noResults Sample.connection
           (Some "MyTest") (Some "testA") (TestResult.Build [] 0)
           eq_refl eq_refl).
Defined.

Lemma runSingleTest_request_witness :
  testRuns (snd (QuickLaunch.runSingleTest Sample.logged Sample.connection
                   (Some "MyTest") (Some "testA")))
  = [SyncTestConfiguration.Build
       [TestItem.Build (Some "MyTest") (Some ["testA"])] "RunSpecifiedTests"]
  /\ testRuns (snd (QuickLaunch.runSingleTest Sample.logged Sample.connection
                      (Some "MyTest") None))
     = [SyncTestConfiguration.Build
          [TestItem.Build (Some "MyTest") None] "RunSpecifiedTests"].
Proof.
  split.
  - apply (proj1 (runSingleTest_request Sample.logged Sample.connection
                    (Some "MyTest") (Some "testA")) "testA");
      [reflexivity | discriminate].
  - apply (proj2 (runSingleTest_request Sample.logged Sample.connection
                    (Some "MyTest") None)).
    left. reflexivity.
Defined.

(** C8, as first stated, fails on an empty method name: the guard
    [testMethod ? [testMethod] : undefined] treats it as absent, so the
    request runs the whole class instead of the method named [""]. *)
Lemma runSingleTest_request_counterexample :
  testRuns (snd (QuickLaunch.runSingleTest Sample.logged Sample.connection
                   (Some "MyTest") (Some "")))
  = [SyncTestConfiguration.Build
       [TestItem.Build (Some "MyTest") None] "RunSpecifiedTests"]
  /\ testRuns (snd (QuickLaunch.runSingleTest Sample.logged Sample.connection
                      (Some "MyTest") (Some "")))
     <> [SyncTestConfiguration.Build
           [TestItem.Build (Some "MyTest") (Some [""])] "RunSpecifiedTests"].
Proof.
  split; [reflexivity | discriminate].
Qed.

Lemma runSingleTest_outcome_invariant_witness :
  (TestRunResult.success
     (TestRunResult.Build (Some "07L5w00000AbCdE") None true) = true ->
   TestRunResult.logFileId
     (TestRunResult.Build (Some "07L5w00000AbCdE") None true) <> None)
  /\ (TestRunResult.success
        (TestRunResult.Build (Some "07L5w00000AbCdE") None true) = false ->
      TestRunResult.logFileId
        (TestRunResult.Build (Some "07L5w00000AbCdE") None true) = None).
Proof.
  exact (@runSingleTest_outcome_invariant _ _ _ Sample.logged
           Sample.connection (Some "MyTest") (Some "testA")
           (TestRunResult.Build (Some "07L5w00000AbCdE") None true) eq_refl).
Defined.

(** ** The log acquisition stage *)

Section AcquisitionStage.
Context {Connection Summary Details : Type}.
Variable w : Collaborators Connection Summary Details.
Variable connection : Connection.
Variable logId : string.

(** C7.  When the download does not throw, [retrieveLogFile] returns a
    success outcome whose path is the log directory joined with the log
    identifier followed by [.log]; and no outcome it returns is a failure. *)
Theorem retrieveLogFile_succeeds :
  (getLogs w connection logId (getLogDirPath w) = Returns tt ->
   fst (QuickLaunch.retrieveLogFile w connection logId)
   = Returns (LogFileRetrieveResult.Build
                (Some (path_join w (getLogDirPath w) (logId ++ ".log")))
                true))
  /\ (forall outcome,
        fst (QuickLaunch.retrieveLogFile w connection logId)
        = Returns outcome ->
        LogFileRetrieveResult.success outcome = true).
Proof.
  unfold QuickLaunch.retrieveLogFile. run_async. split.
  - now intros ->.
  - intros outcome.
    destruct (getLogs w connection logId (getLogDirPath w)) as [[]|e]; cbn.
    + now intros [= <-].
    + discriminate.
Qed.
End AcquisitionStage.

Lemma retrieveLogFile_succeeds_witness :
  fst (QuickLaunch.retrieveLogFile Sample.logged Sample.connection
         "07L5w00000AbCdE")
  = Returns (LogFileRetrieveResult.Build
               (Some ".sfdx/tools/debug/logs/07L5w00000AbCdE.log") true).
Proof.
  exact (proj1 (retrieveLogFile_succeeds Sample.logged Sample.connection
                  "07L5w00000AbCdE") eq_refl).
Defined.

(** ** The orchestrator *)

Section Orchestrator.
Context {Connection Summary Details : Type}.
Variable w : Collaborators Connection Summary Details.
Variable connection : Connection.
Variables testClass testName : optional_string.

Hypothesis connected : getConnection w = Returns connection.

(** C6.  When the trace-flag check answers [false], [debugTest] returns
    [false] without showing any message, and runs no test, fetches no log
    and starts no replay. *)
Theorem debugTest_aborts_when_not_ready :
  ensureTraceFlags w connection = Returns false ->
  fst (QuickLaunch.debugTest w testClass testName) = Returns false
  /\ notifications (snd (QuickLaunch.debugTest w testClass testName)) = []
  /\ testRuns (snd (QuickLaunch.debugTest w testClass testName)) = []
  /\ acquisitions (snd (QuickLaunch.debugTest w testClass testName)) = []
  /\ launches (snd (QuickLaunch.debugTest w testClass testName)) = [].
Proof.
  intros Hready.
  rewrite (debugTest_not_ready w testClass testName connected Hready).
  repeat split.
Qed.

Hypothesis ready : ensureTraceFlags w connection = Returns true.

(** C1 (amended).  When the trace-flag check answers [true], the remote run
    returns a first entry with a non-empty log identifier and the download
    does not throw, [debugTest] returns [true] and calls the replay
    launcher exactly once, on the log directory joined with the identifier
    followed by [.log], with [stopOnEntry = false].  ([path.join] never
    yields the empty string.) *)
Theorem debugTest_replays_log
    (result : TestResult.t Summary Details)
    (first : ApexTestResultData.t Details)
    (rest : list (ApexTestResultData.t Details)) (logId : string) :
  (forall dir file, path_join w dir file <> "") ->
  runTestSynchronous w connection
    (QuickLaunch.testOptions testClass testName) = Returns result ->
  TestResult.tests result = first :: rest ->
  ApexTestResultData.apexLogId first = Some logId ->
  logId <> "" ->
  getLogs w connection logId (getLogDirPath w) = Returns tt ->
  fst (QuickLaunch.debugTest w testClass testName) = Returns true
  /\ launches (snd (QuickLaunch.debugTest w testClass testName))
     = [(path_join w (getLogDirPath w) (logId ++ ".log"), false)].
Proof.
  intros Hjoin Hrun Htests Hlog Hnonempty Hdownload.
  pose proof (runSingleTest_returned w connection testClass testName Hrun)
    as Houtcome.
  rewrite Htests, Hlog, (truthy_nonempty Hnonempty) in Houtcome.
  rewrite (debugTest_log_retrieved w testClass testName connected ready
             Houtcome eq_refl (narrow_nonempty Hnonempty) Hdownload).
  rewrite (narrow_nonempty (Hjoin _ _)).
  split; reflexivity.
Qed.

(** C5 (amended).  When the outcome of the invocation stage is not a
    success carrying a log identifier and its message is a non-empty
    string, [debugTest] shows exactly that message, once, returns [false],
    fetches no log and starts no replay. *)
Theorem debugTest_reports_failure
    (outcome : TestRunResult.t) (text : string) :
  fst (QuickLaunch.runSingleTest w connection testClass testName)
  = Returns outcome ->
  ~ (TestRunResult.success outcome = true
     /\ TestRunResult.logFileId outcome <> None) ->
  TestRunResult.message outcome = Some text ->
  text <> "" ->
  fst (QuickLaunch.debugTest w testClass testName) = Returns false
  /\ notifications (snd (QuickLaunch.debugTest w testClass testName))
     = [text]
  /\ acquisitions (snd (QuickLaunch.debugTest w testClass testName)) = []
  /\ launches (snd (QuickLaunch.debugTest w testClass testName)) = [].
Proof.
  intros Houtcome Hfailed Hmessage Hnonempty.
  assert (Hguard :
            (if TestRunResult.success outcome
             then narrow (TestRunResult.logFileId outcome) else None) = None).
  { destruct (TestRunResult.success outcome); [|reflexivity].
    destruct (TestRunResult.logFileId outcome) as [logId|]; [|reflexivity].
    exfalso. apply Hfailed. split; [reflexivity | discriminate]. }
  rewrite (debugTest_test_failed w testClass testName connected ready
             Houtcome Hguard).
  rewrite Hmessage, (narrow_nonempty Hnonempty).
  repeat split.
Qed.
End Orchestrator.

Lemma debugTest_aborts_when_not_ready_witness :
  fst (QuickLaunch.debugTest Sample.notReady (Some "MyTest") (Some "testA"))
  = Returns false
  /\ notifications
       (snd (QuickLaunch.debugTest Sample.notReady (Some "MyTest") (Some "testA")))
     = []
  /\ testRuns
       (snd (QuickLaunch.debugTest Sample.notReady (Some "MyTest") (Some "testA")))
     = []
  /\ acquisitions
       (snd (QuickLaunch.debugTest Sample.notReady (Some "MyTest") (Some "testA")))
     = []
  /\ launches
       (snd (QuickLaunch.debugTest Sample.notReady (Some "MyTest") (Some "testA")))
     = [].
Proof.
  apply (@debugTest_aborts_when_not_ready _ _ _ Sample.notReady
           Sample.connection); reflexivity.
Defined.

Lemma debugTest_replays_log_witness :
  fst (QuickLaunch.debugTest Sample.logged (Some "MyTest") (Some "testA"))
  = Returns true
  /\ launches
       (snd (QuickLaunch.debugTest Sample.logged (Some "MyTest") (Some "testA")))
     = [(".sfdx/tools/debug/logs/07L5w00000AbCdE.log", false)].
Proof.
  apply (@debugTest_replays_log _ _ _ Sample.logged Sample.connection
           (Some "MyTest") (Some "testA") eq_refl eq_refl
           (TestResult.Build [Sample.entry (Some "07L5w00000AbCdE") "testA"] 1)
           (Sample.entry (Some "07L5w00000AbCdE") "testA") []
           "07L5w00000AbCdE");
    try reflexivity.
  - exact sample_join_nonempty.
  - discriminate.
Defined.

(** C1, as first stated, fails on an entry whose log identifier is the empty
    string: the guard [!tests[0].apexLogId] treats it as missing.  The check
    answers [true], the first entry carries [apexLogId = ""] and the download
    would not throw, yet [debugTest] returns [false] and starts no replay. *)
Lemma debugTest_replays_log_counterexample :
  ensureTraceFlags Sample.emptyLogId Sample.connection = Returns true
  /\ runTestSynchronous Sample.emptyLogId Sample.connection
       (QuickLaunch.testOptions (Some "MyTest") (Some "testA"))
     = Returns (TestResult.Build [Sample.entry (Some "") "testA"] 1)
  /\ ApexTestResultData.apexLogId (Sample.entry (Some "") "testA") = Some ""
  /\ getLogs Sample.emptyLogId Sample.connection ""
       (getLogDirPath Sample.emptyLogId) = Returns tt
  /\ fst (QuickLaunch.debugTest Sample.emptyLogId (Some "MyTest") (Some "testA"))
     = Returns false
  /\ launches
       (snd (QuickLaunch.debugTest Sample.emptyLogId
               (Some "MyTest") (Some "testA")))
     = [].
Proof.
  repeat split.
Qed.

Lemma debugTest_reports_failure_witness :
  fst (QuickLaunch.debugTest Sample.timeout (Some "MyTest") None)
  = Returns false
  /\ notifications
       (snd (QuickLaunch.debugTest Sample.timeout (Some "MyTest") None))
     = ["timeout"]
  /\ acquisitions
       (snd (QuickLaunch.debugTest Sample.timeout (Some "MyTest") None))
     = []
  /\ launches
       (snd (QuickLaunch.debugTest Sample.timeout (Some "MyTest") None))
     = [].
Proof.
  apply (@debugTest_reports_failure _ _ _ Sample.timeout Sample.connection
           (Some "MyTest") None eq_refl eq_refl
           (TestRunResult.Build None (Some "timeout") false) "timeout");
    try reflexivity.
  - intros [Hsuccess _]. discriminate Hsuccess.
  - discriminate.
Defined.

(** C5, as first stated, fails on an outcome whose message is the empty
    string: the guard [else if (testResult.message)] treats it as absent.
    When the remote call throws an error with an empty message, the failure
    outcome carries the message [""], and [debugTest] returns [false] without
    showing anything. *)
Lemma debugTest_reports_failure_counterexample :
  fst (QuickLaunch.runSingleTest Sample.emptyError Sample.connection
         (Some "MyTest") None)
  = Returns (TestRunResult.Build None (Some "") false)
  /\ fst (QuickLaunch.debugTest Sample.emptyError (Some "MyTest") None)
     = Returns false
  /\ notifications
       (snd (QuickLaunch.debugTest Sample.emptyError (Some "MyTest") None))
     = []
  /\ notifications
       (snd (QuickLaunch.debugTest Sample.emptyError (Some "MyTest") None))
     <> [""].
Proof.
  repeat split. discriminate.
Qed.

(** ** The command executor *)

Section Executor.
Context {Connection Summary Details : Type}.
Variable w : Collaborators Connection Summary Details.

Lemma bind_ret (A : Type) (c : Async Connection A) :
  (x <- c ;; ret x) = c.
Proof.
  destruct c as [[a|e] calls]; cbn; [|reflexivity].
  now rewrite app_nil_r.
Qed.

(** C10.  Without a payload, [run] returns [false] and calls no
    collaborator; with a payload, it completes exactly as [debugTest]
    applied to the payload's first element as class name and its second
    element as method name. *)
Theorem run_dispatches_to_debugTest (response : ContinueResponse.t) :
  (ContinueResponse.data response = None ->
   TestDebuggerExecutor.run w response = (Returns false, []))
  /\ (forall payload,
        ContinueResponse.data response = Some payload ->
        TestDebuggerExecutor.run w response
        = QuickLaunch.debugTest w (element payload 0) (element payload 1)).
Proof.
  unfold TestDebuggerExecutor.run. split.
  - now intros ->.
  - intros payload ->. apply bind_ret.
Qed.
End Executor.

Lemma run_dispatches_to_debugTest_witness :
  TestDebuggerExecutor.run Sample.logged (ContinueResponse.Build "CONTINUE" None)
  = (Returns false, [])
  /\ TestDebuggerExecutor.run Sample.logged
       (ContinueResponse.Build "CONTINUE" (Some [Some "MyTest"; Some "testA"]))
     = QuickLaunch.debugTest Sample.logged (Some "MyTest") (Some "testA").
Proof.
  split.
  - exact (proj1 (run_dispatches_to_debugTest Sample.logged
                    (ContinueResponse.Build "CONTINUE" None)) eq_refl).
  - exact (proj2 (run_dispatches_to_debugTest Sample.logged
                    (ContinueResponse.Build "CONTINUE"
                       (Some [Some "MyTest"; Some "testA"])))
             [Some "MyTest"; Some "testA"] eq_refl).
Defined.

(** * Further properties *)

(** ** Every run is one of the listed ones *)

Section RunInversion.
Context {Connection Summary Details : Type}.
Variable w : Collaborators Connection Summary Details.
Variables testClass testName : optional_string.

Lemma runSingleTest_case (connection : Connection) :
  (exists outcome,
     QuickLaunch.runSingleTest w connection testClass testName
     = (Returns outcome,
        [RunTestSynchronous connection
           (QuickLaunch.testOptions testClass testName)])
     /\ InvocationCase w testClass testName connection outcome)
  \/ (exists e thrown,
        runTestSynchronous w connection
          (QuickLaunch.testOptions testClass testName) = Throws e
        /\ message_of e = Throws thrown
        /\ QuickLaunch.runSingleTest w connection testClass testName
           = (Throws thrown,
              [RunTestSynchronous connection
                 (QuickLaunch.testOptions testClass testName)])).
Proof.
  rewrite (surjective_pairing (QuickLaunch.runSingleTest _ _ _ _)).
  rewrite runSingleTest_calls.
  destruct (runTestSynchronous w connection
              (QuickLaunch.testOptions testClass testName))
    as [result|e] eqn:Hrun.
  - left.
    rewrite (runSingleTest_returned w connection testClass testName Hrun).
    destruct (TestResult.tests result) as [|first rest] eqn:Htests.
    + eexists; split; [reflexivity|]. now apply invocation_no_results with result.
    + destruct (truthy (ApexTestResultData.apexLogId first)) eqn:Htruthy.
      * destruct (ApexTestResultData.apexLogId first) as [logId|] eqn:Hlog;
          [|discriminate].
        eexists; split; [reflexivity|].
        apply invocation_logged with result first rest; trivial.
        intros ->. discriminate.
      * eexists; split; [reflexivity|].
        now apply invocation_no_log with result first rest.
  - destruct (message_of e) as [message|thrown] eqn:Hmessage.
    + left.
      rewrite (runSingleTest_thrown w connection testClass testName Hrun
                 Hmessage).
      eexists; split; [reflexivity|]. now apply invocation_thrown with e.
    + right. exists e, thrown.
      now rewrite (runSingleTest_catch_thrown w connection testClass testName
                     Hrun Hmessage).
Qed.

Lemma debugTest_run :
  DebugTestRun w testClass testName
    (QuickLaunch.debugTest w testClass testName).
Proof.
  destruct (getConnection w) as [connection|e] eqn:Hconnected.
  2:{ unfold QuickLaunch.debugTest. run_async. rewrite Hconnected. cbn.
      now apply run_connection_thrown. }
  destruct (ensureTraceFlags w connection) as [[|]|e] eqn:Hready.
  - destruct (runSingleTest_case connection)
      as [(outcome & Hrun & Hcase) | (thrown & e & Hremote & Hmessage & _)].
    2:{ rewrite (debugTest_catch_thrown w testClass testName Hconnected
                   Hready Hremote Hmessage).
        now apply run_catch_thrown with thrown. }
    assert (Houtcome :
              fst (QuickLaunch.runSingleTest w connection testClass testName)
              = Returns outcome) by now rewrite Hrun.
    destruct (TestRunResult.success outcome) eqn:Hsuccess.
    + assert (Hlogged : exists logId,
                 outcome = TestRunResult.Build (Some logId) None true
                 /\ logId <> "").
      { destruct Hcase; try discriminate. now eexists. }
      destruct Hlogged as (logId & -> & Hnonempty).
      destruct (getLogs w connection logId (getLogDirPath w))
        as [[]|e] eqn:Hdownload.
      * rewrite (debugTest_log_retrieved w testClass testName Hconnected
                   Hready Houtcome eq_refl (narrow_nonempty Hnonempty)
                   Hdownload).
        cbn.
        destruct (String.eqb_spec
                    (path_join w (getLogDirPath w) (logId ++ ".log")) "")
          as [Hpath|Hpath]; cbn.
        -- now apply run_no_path.
        -- now apply run_replayed.
      * rewrite (debugTest_download_thrown w testClass testName Hconnected
                   Hready Houtcome eq_refl (narrow_nonempty Hnonempty)
                   Hdownload).
        now apply run_download_thrown.
    + rewrite (debugTest_test_failed w testClass testName Hconnected Hready
                 Houtcome).
      2:{ now rewrite Hsuccess. }
      destruct (narrow (TestRunResult.message outcome)) as [text|] eqn:Htext.
      * now apply run_failed_reported with outcome.
      * now apply run_failed_silently with outcome.
  - rewrite (debugTest_not_ready w testClass testName Hconnected Hready).
    now apply run_not_ready.
  - unfold QuickLaunch.debugTest. run_async.
    rewrite Hconnected. cbn. rewrite Hready. cbn.
    now apply run_flags_thrown.
Qed.
End RunInversion.

(** ** The test invocation stage, continued *)

Section InvocationOutcomes.
Context {Connection Summary Details : Type}.
Variable w : Collaborators Connection Summary Details.
Variable connection : Connection.
Variables testClass testMethod : optional_string.

(** X1.  When the first returned entry has a non-empty log identifier,
    [runSingleTest] returns a success outcome carrying that identifier and no
    message, whatever the later entries and the rest of the result hold. *)
Theorem runSingleTest_success
    (result : TestResult.t Summary Details)
    (first : ApexTestResultData.t Details)
    (rest : list (ApexTestResultData.t Details)) (logId : string) :
  runTestSynchronous w connection
    (QuickLaunch.testOptions testClass testMethod) = Returns result ->
  TestResult.tests result = first :: rest ->
  ApexTestResultData.apexLogId first = Some logId ->
  logId <> "" ->
  fst (QuickLaunch.runSingleTest w connection testClass testMethod)
  = Returns (TestRunResult.Build (Some logId) None true).
Proof.
  intros Hrun Htests Hlog Hnonempty.
  rewrite (runSingleTest_returned w connection testClass testMethod Hrun).
  now rewrite Htests, Hlog, (truthy_nonempty Hnonempty).
Qed.

(** X2.  When the first returned entry carries the empty string as its log
    identifier, [runSingleTest] returns the [debug_test_no_debug_log] failure,
    as for a missing identifier, even if a later entry has a usable one. *)
Theorem runSingleTest_empty_log_id
    (result : TestResult.t Summary Details)
    (first : ApexTestResultData.t Details)
    (rest : list (ApexTestResultData.t Details)) :
  runTestSynchronous w connection
    (QuickLaunch.testOptions testClass testMethod) = Returns result ->
  TestResult.tests result = first :: rest ->
  ApexTestResultData.apexLogId first = Some "" ->
  fst (QuickLaunch.runSingleTest w connection testClass testMethod)
  = Returns (TestRunResult.Build None
               (Some (localize w "debug_test_no_debug_log")) false).
Proof.
  intros Hrun Htests Hlog.
  rewrite (runSingleTest_returned w connection testClass testMethod Hrun).
  now rewrite Htests, Hlog.
Qed.


(** X4.  A success outcome of [runSingleTest] has one origin only: the remote
    call returned a non-empty list whose first entry has a non-empty log
    identifier; the outcome carries exactly that identifier and no message. *)
Theorem runSingleTest_success_origin (outcome : TestRunResult.t) :
  fst (QuickLaunch.runSingleTest w connection testClass testMethod)
  = Returns outcome ->
  TestRunResult.success outcome = true ->
  exists result first rest logId,
    runTestSynchronous w connection
      (QuickLaunch.testOptions testClass testMethod) = Returns result
    /\ TestResult.tests result = first :: rest
    /\ ApexTestResultData.apexLogId first = Some logId
    /\ logId <> ""
    /\ outcome = TestRunResult.Build (Some logId) None true.
Proof.
  destruct (runSingleTest_case w testClass testMethod connection)
    as [(outcome' & Hrun & Hcase) | (e & thrown & _ & _ & Hrun)];
    rewrite Hrun; cbn; [|discriminate].
  intros [= <-] Hsuccess.
  destruct Hcase as [e ? ? ? | result ? ? | result first rest ? ? ?
                     | result first rest logId Hremote Htests Hlog Hnonempty];
    try discriminate.
  now exists result, first, rest, logId.
Qed.

(** X5.  A failure outcome of [runSingleTest] lacks a message only when the
    remote call threw a value whose [message] is unset: every failure drawn
    from a returned result carries one of the two localized messages. *)
Theorem runSingleTest_message_absent_origin (outcome : TestRunResult.t) :
  fst (QuickLaunch.runSingleTest w connection testClass testMethod)
  = Returns outcome ->
  TestRunResult.success outcome = false ->
  TestRunResult.message outcome = None ->
  exists e,
    runTestSynchronous w connection
      (QuickLaunch.testOptions testClass testMethod) = Throws e
    /\ message_of e = Returns None.
Proof.
  destruct (runSingleTest_case w testClass testMethod connection)
    as [(outcome' & Hrun & Hcase) | (e & thrown & _ & _ & Hrun)];
    rewrite Hrun; cbn; [|discriminate].
  intros [= <-] Hsuccess Hmessage.
  destruct Hcase as [e message Hremote Hread | | | ]; try discriminate.
  cbn in Hmessage. subst message. now exists e.
Qed.
End InvocationOutcomes.

Lemma runSingleTest_success_witness :
  fst (QuickLaunch.runSingleTest Sample.logged Sample.connection
         (Some "MyTest") (Some "testA"))
  = Returns (TestRunResult.Build (Some "07L5w00000AbCdE") None true).
Proof.
  exact (@runSingleTest_success _ _ _ Sample.logged Sample.connection
           (Some "MyTest") (Some "testA")
           (TestResult.Build [Sample.entry (Some "07L5w00000AbCdE") "testA"] 1)
           (Sample.entry (Some "07L5w00000AbCdE") "testA") []
           "07L5w00000AbCdE" eq_refl eq_refl eq_refl
           ltac:(discriminate)).
Defined.

Lemma runSingleTest_empty_log_id_witness :
  fst (QuickLaunch.runSingleTest Sample.emptyLogId Sample.connection
         (Some "MyTest") (Some "testA"))
  = Returns (TestRunResult.Build None (Some "debug_test_no_debug_log") false).
Proof.
  exact (@runSingleTest_empty_log_id _ _ _ Sample.emptyLogId Sample.connection
           (Some "MyTest") (Some "testA")
           (TestResult.Build [Sample.entry (Some "") "testA"] 1)
           (Sample.entry (Some "") "testA") []
           eq_refl eq_refl eq_refl).
Defined.

Lemma runSingleTest_success_origin_witness :
  exists result first rest logId,
    runTestSynchronous Sample.logged Sample.connection
      (QuickLaunch.testOptions (Some "MyTest") (Some "testA")) = Returns result
    /\ TestResult.tests result = first :: rest
    /\ ApexTestResultData.apexLogId first = Some logId
    /\ logId <> ""
    /\ TestRunResult.Build (Some "07L5w00000AbCdE") None true
       = TestRunResult.Build (Some logId) None true.
Proof.
  exact (@runSingleTest_success_origin _ _ _ Sample.logged Sample.connection
           (Some "MyTest") (Some "testA")
           (TestRunResult.Build (Some "07L5w00000AbCdE") None true)
           eq_refl eq_refl).
Defined.

Lemma runSingleTest_message_absent_origin_witness :
  exists e,
    runTestSynchronous Sample.silentError Sample.connection
      (QuickLaunch.testOptions (Some "MyTest") None) = Throws e
    /\ message_of e = Returns None.
Proof.
  exact (@runSingleTest_message_absent_origin _ _ _ Sample.silentError
           Sample.connection (Some "MyTest") None
           (TestRunResult.Build None None false) eq_refl eq_refl eq_refl).
Defined.

(** ** The log acquisition stage, continued *)

(** X6.  When the download throws, [retrieveLogFile] returns no outcome at
    all: the same error leaves the method, after the log directory was
    resolved and the download attempted once, for that log and directory. *)
Theorem retrieveLogFile_download_error
    {Connection Summary Details : Type}
    (w : Collaborators Connection Summary Details)
    (connection : Connection) (logId : string) (e : JsError.t) :
  getLogs w connection logId (getLogDirPath w) = Throws e ->
  QuickLaunch.retrieveLogFile w connection logId
  = (Throws e,
     [GetLogDirPath; GetLogs connection logId (getLogDirPath w)]).
Proof.
  intros Hdownload. unfold QuickLaunch.retrieveLogFile. run_async.
  now rewrite Hdownload.
Qed.

Lemma retrieveLogFile_download_error_witness :
  QuickLaunch.retrieveLogFile Sample.downloadError Sample.connection
    "07L5w00000AbCdE"
  = (Throws (JsError.Build (Some "ENOENT")),
     [GetLogDirPath;
      GetLogs Sample.connection "07L5w00000AbCdE" ".sfdx/tools/debug/logs"]).
Proof.
  exact (@retrieveLogFile_download_error _ _ _ Sample.downloadError
           Sample.connection "07L5w00000AbCdE" (JsError.Build (Some "ENOENT"))
           eq_refl).
Defined.

(** ** The orchestrator: what holds of every run *)

Section EveryRun.
Context {Connection Summary Details : Type}.
Variable w : Collaborators Connection Summary Details.
Variables testClass testName : optional_string.

(** X7.  [debugTest] returns [true] exactly when it has started the replay:
    a [true] run called the launcher once, and any call to the launcher
    belongs to a [true] run and has [stopOnEntry = false]. *)
Theorem debugTest_true_iff_replayed :
  (fst (QuickLaunch.debugTest w testClass testName) = Returns true ->
   exists logFile,
     launches (snd (QuickLaunch.debugTest w testClass testName))
     = [(logFile, false)])
  /\ (forall logFile stopOnEntry,
        In (logFile, stopOnEntry)
          (launches (snd (QuickLaunch.debugTest w testClass testName))) ->
        stopOnEntry = false
        /\ fst (QuickLaunch.debugTest w testClass testName) = Returns true).
Proof.
  destruct (debugTest_run w testClass testName); cbn; split;
    try discriminate; try contradiction.
  - intros _. now eexists.
  - intros logFile stopOnEntry [[= <- <-]|[]]. now split.
Qed.


(** X9.  A remote test is run only after the connection was obtained and the
    trace-flag check answered [true]; it is then run once, with the request
    built from the class and the method. *)
Theorem debugTest_test_run_guarded :
  testRuns (snd (QuickLaunch.debugTest w testClass testName)) <> [] ->
  exists connection,
    getConnection w = Returns connection
    /\ ensureTraceFlags w connection = Returns true
    /\ testRuns (snd (QuickLaunch.debugTest w testClass testName))
       = [QuickLaunch.testOptions testClass testName].
Proof.
  destruct (debugTest_run w testClass testName); cbn; try contradiction;
    intros _; now exists connection.
Qed.

(** X10.  A log is downloaded only when the remote run returned a first entry
    with a non-empty log identifier: the download asks for that identifier,
    on the connection of the run, into the resolved log directory. *)
Theorem debugTest_download_guarded
    (connection : Connection) (logId outputDir : string) :
  In (GetLogs connection logId outputDir)
    (snd (QuickLaunch.debugTest w testClass testName)) ->
  getConnection w = Returns connection
  /\ outputDir = getLogDirPath w
  /\ logId <> ""
  /\ exists result first rest,
       runTestSynchronous w connection
         (QuickLaunch.testOptions testClass testName) = Returns result
       /\ TestResult.tests result = first :: rest
       /\ ApexTestResultData.apexLogId first = Some logId.
Proof.
  destruct (debugTest_run w testClass testName) as
    [ | | | | | | c id e Hconnected Hready Hcase Hdownload
      | c id Hconnected Hready Hcase Hdownload Hpath
      | c id Hconnected Hready Hcase Hdownload Hpath ]; cbn;
    intros Hin;
    repeat (destruct Hin as [Hin|Hin]; try discriminate Hin);
    try contradiction;
    injection Hin as <- <- <-;
    inversion Hcase as [ | | | result first rest logId' Hremote Htests Hlog
                              Hnonempty ]; subst;
    (repeat split; trivial; now exists result, first, rest).
Qed.

(** X11.  The user is notified at most once per run, with a non-empty text,
    and only in a run that returns [false]; a run that notifies has fetched
    no log and started no replay. *)
Theorem debugTest_notification_exclusive :
  notifications (snd (QuickLaunch.debugTest w testClass testName)) <> [] ->
  fst (QuickLaunch.debugTest w testClass testName) = Returns false
  /\ acquisitions (snd (QuickLaunch.debugTest w testClass testName)) = []
  /\ launches (snd (QuickLaunch.debugTest w testClass testName)) = []
  /\ exists text,
       text <> ""
       /\ notifications (snd (QuickLaunch.debugTest w testClass testName))
          = [text].
Proof.
  destruct (debugTest_run w testClass testName) as
    [ | | | | | c outcome text Hconnected Hready Hcase Hsuccess Htext | | | ];
    cbn; try contradiction.
  intros _. repeat split. exists text. split; [|reflexivity].
  now destruct (narrow_inv _ Htext).
Qed.

(** X12.  Every run starts by asking the workspace for the connection, asks
    once, and hands that connection, and no other, to the trace-flag helper,
    the test service and the log service. *)
Theorem debugTest_shares_connection :
  exists calls,
    snd (QuickLaunch.debugTest w testClass testName) = GetConnection :: calls
    /\ ~ In GetConnection calls
    /\ forall connection,
         In connection (connectionsUsed calls) ->
         getConnection w = Returns connection.
Proof.
  destruct (debugTest_run w testClass testName); cbn;
    eexists; (split; [reflexivity|]); cbn; split;
    try (intros Hin;
         repeat (destruct Hin as [Hin|Hin]; try discriminate Hin);
         contradiction);
    intros c Hin;
    repeat (destruct Hin as [Hin|Hin]; try (now subst c));
    contradiction.
Qed.
End EveryRun.

Lemma debugTest_true_iff_replayed_witness :
  exists logFile,
    launches
      (snd (QuickLaunch.debugTest Sample.logged (Some "MyTest") (Some "testA")))
    = [(logFile, false)].
Proof.
  exact (proj1 (debugTest_true_iff_replayed Sample.logged
                  (Some "MyTest") (Some "testA")) eq_refl).
Defined.


Lemma debugTest_test_run_guarded_witness :
  exists connection,
    getConnection Sample.noResults = Returns connection
    /\ ensureTraceFlags Sample.noResults connection = Returns true
    /\ testRuns (snd (QuickLaunch.debugTest Sample.noResults
                        (Some "MyTest") (Some "testA")))
       = [QuickLaunch.testOptions (Some "MyTest") (Some "testA")].
Proof.
  apply (@debugTest_test_run_guarded _ _ _ Sample.noResults
           (Some "MyTest") (Some "testA")).
  discriminate.
Defined.

Lemma debugTest_download_guarded_witness :
  getConnection Sample.downloadError = Returns Sample.connection
  /\ ".sfdx/tools/debug/logs" = getLogDirPath Sample.downloadError
  /\ "07L5w00000AbCdE" <> ""
  /\ exists result first rest,
       runTestSynchronous Sample.downloadError Sample.connection
         (QuickLaunch.testOptions (Some "MyTest") (Some "testA"))
       = Returns result
       /\ TestResult.tests result = first :: rest
       /\ ApexTestResultData.apexLogId first = Some "07L5w00000AbCdE".
Proof.
  apply (@debugTest_download_guarded _ _ _ Sample.downloadError
           (Some "MyTest") (Some "testA")).
  cbn. do 4 right. left. reflexivity.
Defined.

Lemma debugTest_notification_exclusive_witness :
  fst (QuickLaunch.debugTest Sample.noResults (Some "MyTest") None)
  = Returns false
  /\ acquisitions
       (snd (QuickLaunch.debugTest Sample.noResults (Some "MyTest") None)) = []
  /\ launches
       (snd (QuickLaunch.debugTest Sample.noResults (Some "MyTest") None)) = []
  /\ exists text,
       text <> ""
       /\ notifications
            (snd (QuickLaunch.debugTest Sample.noResults (Some "MyTest") None))
          = [text].
Proof.
  apply (@debugTest_notification_exclusive _ _ _ Sample.noResults
           (Some "MyTest") None).
  discriminate.
Defined.

(** ** The orchestrator: errors and reports *)

Section Escapes.
Context {Connection Summary Details : Type}.
Variable w : Collaborators Connection Summary Details.
Variables testClass testName : optional_string.

(** X13.  When the connection lookup throws, [debugTest] does not return
    [false]: the same error leaves it, and nothing else was called. *)
Theorem debugTest_connection_error (e : JsError.t) :
  getConnection w = Throws e ->
  QuickLaunch.debugTest w testClass testName = (Throws e, [GetConnection]).
Proof.
  intros Hconnected. unfold QuickLaunch.debugTest. run_async.
  now rewrite Hconnected.
Qed.

Variable connection : Connection.
Hypothesis connected : getConnection w = Returns connection.

(** X14.  When the trace-flag check throws, the same error leaves
    [debugTest]; no test is run and the user is not notified. *)
Theorem debugTest_trace_flags_error (e : JsError.t) :
  ensureTraceFlags w connection = Throws e ->
  QuickLaunch.debugTest w testClass testName
  = (Throws e, [GetConnection; EnsureTraceFlags connection]).
Proof.
  intros Hready. unfold QuickLaunch.debugTest. run_async.
  rewrite connected. cbn. now rewrite Hready.
Qed.

Hypothesis ready : ensureTraceFlags w connection = Returns true.

(** X15.  When the test left a log but its download throws, the error is not
    caught: it leaves [debugTest], which neither returns [false] nor
    notifies the user, and the replay is not started. *)
Theorem debugTest_download_error
    (result : TestResult.t Summary Details)
    (first : ApexTestResultData.t Details)
    (rest : list (ApexTestResultData.t Details)) (logId : string)
    (e : JsError.t) :
  runTestSynchronous w connection
    (QuickLaunch.testOptions testClass testName) = Returns result ->
  TestResult.tests result = first :: rest ->
  ApexTestResultData.apexLogId first = Some logId ->
  logId <> "" ->
  getLogs w connection logId (getLogDirPath w) = Throws e ->
  fst (QuickLaunch.debugTest w testClass testName) = Throws e
  /\ notifications (snd (QuickLaunch.debugTest w testClass testName)) = []
  /\ launches (snd (QuickLaunch.debugTest w testClass testName)) = [].
Proof.
  intros Hrun Htests Hlog Hnonempty Hdownload.
  pose proof (runSingleTest_returned w connection testClass testName Hrun)
    as Houtcome.
  rewrite Htests, Hlog, (truthy_nonempty Hnonempty) in Houtcome.
  rewrite (debugTest_download_thrown w testClass testName connected ready
             Houtcome eq_refl (narrow_nonempty Hnonempty) Hdownload).
  repeat split.
Qed.

(** X16.  When the remote run throws an error whose message is a non-empty
    text, [debugTest] returns [false] and shows that text, once; no log is
    fetched and no replay is started. *)
Theorem debugTest_reports_thrown_message (e : JsError.t) (text : string) :
  runTestSynchronous w connection
    (QuickLaunch.testOptions testClass testName) = Throws e ->
  message_of e = Returns (Some text) ->
  text <> "" ->
  QuickLaunch.debugTest w testClass testName
  = (Returns false,
     [GetConnection; EnsureTraceFlags connection;
      RunTestSynchronous connection
        (QuickLaunch.testOptions testClass testName);
      ShowErrorMessage text]).
Proof.
  intros Hrun Hmessage Hnonempty.
  pose proof (runSingleTest_thrown w connection testClass testName Hrun
                Hmessage)
    as Houtcome.
  rewrite (debugTest_test_failed w testClass testName connected ready
             Houtcome eq_refl).
  cbn [TestRunResult.message]. now rewrite (narrow_nonempty Hnonempty).
Qed.

(** X17.  When the remote run throws an error whose message is unset or
    empty, [debugTest] returns [false] and the user is told nothing. *)
Theorem debugTest_silent_on_empty_error (e : JsError.t) :
  runTestSynchronous w connection
    (QuickLaunch.testOptions testClass testName) = Throws e ->
  message_of e = Returns None \/ message_of e = Returns (Some "") ->
  QuickLaunch.debugTest w testClass testName
  = (Returns false,
     [GetConnection; EnsureTraceFlags connection;
      RunTestSynchronous connection
        (QuickLaunch.testOptions testClass testName)]).
Proof.
  intros Hrun [Hmessage | Hmessage];
    pose proof (runSingleTest_thrown w connection testClass testName Hrun
                  Hmessage)
      as Houtcome;
    now rewrite (debugTest_test_failed w testClass testName connected ready
                   Houtcome eq_refl).
Qed.

(** X23.  When the remote run rejects with [null] or [undefined], the catch
    clause of [runSingleTest] throws on reading [message]: that [TypeError]
    leaves [debugTest], which neither returns [false] nor notifies the user;
    no log is fetched and no replay is started. *)
Theorem debugTest_nullish_rejection (e : JsError.t) :
  runTestSynchronous w connection
    (QuickLaunch.testOptions testClass testName) = Throws e ->
  e = JsError.Null \/ e = JsError.Undefined ->
  fst (QuickLaunch.runSingleTest w connection testClass testName)
  = Throws (match e with
            | JsError.Null => typeErrorNull "message"
            | _ => typeError "message"
            end)
  /\ QuickLaunch.debugTest w testClass testName
     = (Throws (match e with
                | JsError.Null => typeErrorNull "message"
                | _ => typeError "message"
                end),
        [GetConnection; EnsureTraceFlags connection;
         RunTestSynchronous connection
           (QuickLaunch.testOptions testClass testName)]).
Proof.
  intros Hrun Hnullish.
  assert (Hmessage :
            message_of e
            = Throws (match e with
                      | JsError.Null => typeErrorNull "message"
                      | _ => typeError "message"
                      end))
    by now destruct Hnullish as [-> | ->].
  split.
  - exact (runSingleTest_catch_thrown w connection testClass testName Hrun
             Hmessage).
  - exact (debugTest_catch_thrown w testClass testName connected ready Hrun
             Hmessage).
Qed.

(** X18.  When the remote run returns no entry, [debugTest] returns [false]
    and shows the localized [debug_test_no_results_found] text, once,
    provided that text is not empty; no log is fetched, no replay started. *)
Theorem debugTest_reports_no_results
    (result : TestResult.t Summary Details) :
  runTestSynchronous w connection
    (QuickLaunch.testOptions testClass testName) = Returns result ->
  TestResult.tests result = [] ->
  localize w "debug_test_no_results_found" <> "" ->
  QuickLaunch.debugTest w testClass testName
  = (Returns false,
     [GetConnection; EnsureTraceFlags connection;
      RunTestSynchronous connection
        (QuickLaunch.testOptions testClass testName);
      ShowErrorMessage (localize w "debug_test_no_results_found")]).
Proof.
  intros Hrun Htests Hnonempty.
  pose proof (runSingleTest_returned w connection testClass testName Hrun)
    as Houtcome.
  rewrite Htests in Houtcome.
  rewrite (debugTest_test_failed w testClass testName connected ready
             Houtcome eq_refl).
  cbn [TestRunResult.message]. now rewrite (narrow_nonempty Hnonempty).
Qed.

(** X19.  When the first returned entry has no log identifier, or the empty
    one, [debugTest] returns [false] and shows the localized
    [debug_test_no_debug_log] text, once, provided that text is not empty;
    the log of a later entry is not fetched. *)
Theorem debugTest_reports_no_debug_log
    (result : TestResult.t Summary Details)
    (first : ApexTestResultData.t Details)
    (rest : list (ApexTestResultData.t Details)) :
  runTestSynchronous w connection
    (QuickLaunch.testOptions testClass testName) = Returns result ->
  TestResult.tests result = first :: rest ->
  ApexTestResultData.apexLogId first = None
  \/ ApexTestResultData.apexLogId first = Some "" ->
  localize w "debug_test_no_debug_log" <> "" ->
  QuickLaunch.debugTest w testClass testName
  = (Returns false,
     [GetConnection; EnsureTraceFlags connection;
      RunTestSynchronous connection
        (QuickLaunch.testOptions testClass testName);
      ShowErrorMessage (localize w "debug_test_no_debug_log")]).
Proof.
  intros Hrun Htests Hlog Hnonempty.
  pose proof (runSingleTest_returned w connection testClass testName Hrun)
    as Houtcome.
  rewrite Htests in Houtcome.
  assert (Hfalsy : truthy (ApexTestResultData.apexLogId first) = false)
    by now destruct Hlog as [-> | ->].
  rewrite Hfalsy in Houtcome.
  rewrite (debugTest_test_failed w testClass testName connected ready
             Houtcome eq_refl).
  cbn [TestRunResult.message]. now rewrite (narrow_nonempty Hnonempty).
Qed.
End Escapes.

Lemma debugTest_connection_error_witness :
  QuickLaunch.debugTest Sample.offline (Some "MyTest") (Some "testA")
  = (Throws (JsError.Build (Some "No default org is set")), [GetConnection]).
Proof.
  exact (@debugTest_connection_error _ _ _ Sample.offline
           (Some "MyTest") (Some "testA")
           (JsError.Build (Some "No default org is set")) eq_refl).
Defined.

Lemma debugTest_trace_flags_error_witness :
  QuickLaunch.debugTest Sample.flagsError (Some "MyTest") (Some "testA")
  = (Throws (JsError.Build (Some "INVALID_SESSION_ID")),
     [GetConnection; EnsureTraceFlags Sample.connection]).
Proof.
  exact (@debugTest_trace_flags_error _ _ _ Sample.flagsError
           (Some "MyTest") (Some "testA") Sample.connection eq_refl
           (JsError.Build (Some "INVALID_SESSION_ID")) eq_refl).
Defined.

Lemma debugTest_download_error_witness :
  fst (QuickLaunch.debugTest Sample.downloadError (Some "MyTest") (Some "testA"))
  = Throws (JsError.Build (Some "ENOENT"))
  /\ notifications
       (snd (QuickLaunch.debugTest Sample.downloadError
               (Some "MyTest") (Some "testA"))) = []
  /\ launches
       (snd (QuickLaunch.debugTest Sample.downloadError
               (Some "MyTest") (Some "testA"))) = [].
Proof.
  apply (@debugTest_download_error _ _ _ Sample.downloadError
           (Some "MyTest") (Some "testA") Sample.connection eq_refl eq_refl
           (TestResult.Build [Sample.entry (Some "07L5w00000AbCdE") "testA"] 1)
           (Sample.entry (Some "07L5w00000AbCdE") "testA") []
           "07L5w00000AbCdE" (JsError.Build (Some "ENOENT")));
    try reflexivity.
  discriminate.
Defined.

Lemma debugTest_reports_thrown_message_witness :
  QuickLaunch.debugTest Sample.timeout (Some "MyTest") None
  = (Returns false,
     [GetConnection; EnsureTraceFlags Sample.connection;
      RunTestSynchronous Sample.connection
        (QuickLaunch.testOptions (Some "MyTest") None);
      ShowErrorMessage "timeout"]).
Proof.
  apply (@debugTest_reports_thrown_message _ _ _ Sample.timeout
           (Some "MyTest") None Sample.connection eq_refl eq_refl
           (JsError.Build (Some "timeout")) "timeout");
    try reflexivity.
  discriminate.
Defined.

Lemma debugTest_nullish_rejection_witness :
  fst (QuickLaunch.runSingleTest Sample.nullRejection Sample.connection
         (Some "MyTest") None)
  = Throws (typeErrorNull "message")
  /\ QuickLaunch.debugTest Sample.nullRejection (Some "MyTest") None
     = (Throws (typeErrorNull "message"),
        [GetConnection; EnsureTraceFlags Sample.connection;
         RunTestSynchronous Sample.connection
           (QuickLaunch.testOptions (Some "MyTest") None)]).
Proof.
  apply (@debugTest_nullish_rejection _ _ _ Sample.nullRejection
           (Some "MyTest") None Sample.connection eq_refl eq_refl
           JsError.Null).
  - reflexivity.
  - left. reflexivity.
Defined.

Lemma debugTest_silent_on_empty_error_witness :
  QuickLaunch.debugTest Sample.silentError (Some "MyTest") None
  = (Returns false,
     [GetConnection; EnsureTraceFlags Sample.connection;
      RunTestSynchronous Sample.connection
        (QuickLaunch.testOptions (Some "MyTest") None)]).
Proof.
  apply (@debugTest_silent_on_empty_error _ _ _ Sample.silentError
           (Some "MyTest") None Sample.connection eq_refl eq_refl
           (JsError.Build None)).
  - reflexivity.
  - left. reflexivity.
Defined.

Lemma debugTest_reports_no_results_witness :
  QuickLaunch.debugTest Sample.noResults (Some "MyTest") None
  = (Returns false,
     [GetConnection; EnsureTraceFlags Sample.connection;
      RunTestSynchronous Sample.connection
        (QuickLaunch.testOptions (Some "MyTest") None);
      ShowErrorMessage "debug_test_no_results_found"]).
Proof.
  apply (@debugTest_reports_no_results _ _ _ Sample.noResults
           (Some "MyTest") None Sample.connection eq_refl eq_refl
           (TestResult.Build [] 0));
    try reflexivity.
  discriminate.
Defined.

Lemma debugTest_reports_no_debug_log_witness :
  QuickLaunch.debugTest Sample.logOnSecondEntry (Some "MyTest") None
  = (Returns false,
     [GetConnection; EnsureTraceFlags Sample.connection;
      RunTestSynchronous Sample.connection
        (QuickLaunch.testOptions (Some "MyTest") None);
      ShowErrorMessage "debug_test_no_debug_log"]).
Proof.
  apply (@debugTest_reports_no_debug_log _ _ _ Sample.logOnSecondEntry
           (Some "MyTest") None Sample.connection eq_refl eq_refl
           (TestResult.Build
              [Sample.entry None "testA";
               Sample.entry (Some "07L5w00000AbCdE") "testB"] 2)
           (Sample.entry None "testA")
           [Sample.entry (Some "07L5w00000AbCdE") "testB"]);
    try reflexivity.
  - left. reflexivity.
  - discriminate.
Defined.

(** ** The command executor, continued *)

Section ExecutorPayload.
Context {Connection Summary Details : Type}.
Variable w : Collaborators Connection Summary Details.

Lemma run_payload (response : ContinueResponse.t)
    (payload : list optional_string) :
  ContinueResponse.data response = Some payload ->
  TestDebuggerExecutor.run w response
  = QuickLaunch.debugTest w (element payload 0) (element payload 1).
Proof.
  unfold TestDebuggerExecutor.run. intros ->. apply bind_ret.
Qed.

(** X20.  [run] reads nothing of a response but the first two elements of
    its payload: two responses with payloads that agree there run alike,
    whatever their [type] and their further elements. *)
Theorem run_reads_first_two (response response' : ContinueResponse.t)
    (payload payload' : list optional_string) :
  ContinueResponse.data response = Some payload ->
  ContinueResponse.data response' = Some payload' ->
  element payload 0 = element payload' 0 ->
  element payload 1 = element payload' 1 ->
  TestDebuggerExecutor.run w response = TestDebuggerExecutor.run w response'.
Proof.
  intros Hdata Hdata' Hclass Hmethod.
  rewrite (run_payload _ Hdata), (run_payload _ Hdata').
  now rewrite Hclass, Hmethod.
Qed.

(** X21.  The response [setupAndDebugTests] builds always carries a payload,
    and the executor's [run] method applied to it is [debugTest] on the very
    class name and method name [setupAndDebugTests] was given. *)
Theorem setupAndDebugTests_response_runs_debugTest
    (className : string) (methodName : optional_string) :
  LibraryCommandletExecutor.run (TestDebuggerExecutor.new w)
    (setupAndDebugTests_response className methodName)
  = QuickLaunch.debugTest w (Some className) methodName.
Proof.
  cbn [LibraryCommandletExecutor.run TestDebuggerExecutor.new].
  now rewrite (@run_payload _ [Some className; methodName]).
Qed.

(** X22.  Any request [run] sends is the one for the class in the first
    element and the method in the second element of the payload; a payload
    too short to hold a method asks for the whole class. *)
Theorem run_request (response : ContinueResponse.t)
    (payload : list optional_string) (request : SyncTestConfiguration.t) :
  ContinueResponse.data response = Some payload ->
  In request (testRuns (snd (TestDebuggerExecutor.run w response))) ->
  request = QuickLaunch.testOptions (element payload 0) (element payload 1)
  /\ (length payload <= 1 ->
      request
      = SyncTestConfiguration.Build
          [TestItem.Build (element payload 0) None] "RunSpecifiedTests").
Proof.
  intros Hdata. rewrite (run_payload _ Hdata).
  destruct (debugTest_run w (element payload 0) (element payload 1)); cbn;
    try contradiction;
    (intros [<-|[]]; split; [reflexivity|]);
    intros Hshort;
    (destruct payload as [|className [|methodName rest]];
     [reflexivity | reflexivity | cbn in Hshort]);
    now apply Nat.succ_le_mono, Nat.nle_succ_0 in Hshort.
Qed.
End ExecutorPayload.

Lemma run_reads_first_two_witness :
  TestDebuggerExecutor.run Sample.logged
    (ContinueResponse.Build "CONTINUE" (Some [Some "MyTest"]))
  = TestDebuggerExecutor.run Sample.logged
      (ContinueResponse.Build "CANCEL"
         (Some [Some "MyTest"; None; Some "ignored"])).
Proof.
  exact (@run_reads_first_two _ _ _ Sample.logged
           (ContinueResponse.Build "CONTINUE" (Some [Some "MyTest"]))
           (ContinueResponse.Build "CANCEL"
              (Some [Some "MyTest"; None; Some "ignored"]))
           [Some "MyTest"] [Some "MyTest"; None; Some "ignored"]
           eq_refl eq_refl eq_refl eq_refl).
Defined.

Lemma run_request_witness :
  SyncTestConfiguration.Build
    [TestItem.Build (Some "MyTest") None] "RunSpecifiedTests"
  = QuickLaunch.testOptions (element [Some "MyTest"] 0)
      (element [Some "MyTest"] 1)
  /\ (length [Some "MyTest"] <= 1 ->
      SyncTestConfiguration.Build
        [TestItem.Build (Some "MyTest") None] "RunSpecifiedTests"
      = SyncTestConfiguration.Build
          [TestItem.Build (element [Some "MyTest"] 0) None]
          "RunSpecifiedTests").
Proof.
  apply (@run_request _ _ _ Sample.logged
           (ContinueResponse.Build "CONTINUE" (Some [Some "MyTest"]))
           [Some "MyTest"]).
  - reflexivity.
  - cbn. left. reflexivity.
Defined.
